(** * rpigeneui: LoRaWAN EUI from the Raspberry Pi serial number and revision

    A shallow embedding of [rpigeneui.py] and the properties of its field
    extraction and EUI encoding.

    Python strings are sequences of Unicode code points: a [str] is a list of
    code points, each an [N].  The string methods the script calls
    ([splitlines], [in], [split], indexing, slicing, [format], [upper]) are
    embedded first, with CPython's behaviour on each; the script's own
    functions follow, under their own names. *)

From Stdlib Require Import String Ascii NArith ZArith Bool Arith Lia List.
Import ListNotations.

(* ================================================================== *)
(** ** Python values: strings, exceptions, results *)

Definition char := N.
Definition str := list char.

(** A literal: the code points of an ASCII string constant. *)
Definition py (s : string) : str := List.map N_of_ascii (list_ascii_of_string s).

(** The exceptions that the modelled calls can raise.  [KeyboardInterrupt]
    and [SystemExit] derive from [BaseException] only; the others derive from
    [Exception]. *)
Inductive exception : Type :=
  | IndexError
  | ValueError
  | TypeError
  | MemoryError
  | UnicodeDecodeError
  | FileNotFoundError
  | PermissionError
  | IsADirectoryError
  | OSError
  | KeyboardInterrupt
  | SystemExit.

(** [isinstance(e, Exception)]. *)
Definition is_Exception (e : exception) : bool :=
  match e with
  | KeyboardInterrupt | SystemExit => false
  | _ => true
  end.

(** A call either returns a value or raises. *)
Inductive result (A : Type) : Type :=
  | Ok (a : A)
  | Raise (e : exception).
Arguments Ok {A} a.
Arguments Raise {A} e.

Definition bind {A B : Type} (m : result A) (k : A -> result B) : result B :=
  match m with
  | Ok a => k a
  | Raise e => Raise e
  end.

Notation "x <- m ;; k" := (bind m (fun x => k))
  (at level 61, m at next level, right associativity).

(** [try: body  except Exception: handler]. *)
Definition try_except_Exception {A : Type} (body handler : result A) : result A :=
  match body with
  | Ok a => Ok a
  | Raise e => if is_Exception e then handler else Raise e
  end.

(* ================================================================== *)
(** ** The string methods used by the script *)

(** [s.startswith(p)]. *)
Fixpoint startswith (p s : str) : bool :=
  match p, s with
  | [], _ => true
  | _ :: _, [] => false
  | a :: p', b :: s' => N.eqb a b && startswith p' s'
  end.

(** [p in s]: [p] occurs in [s] at some position. *)
Fixpoint contains (p s : str) : bool :=
  startswith p s ||
  match s with
  | [] => false
  | _ :: s' => contains p s'
  end.

(** [s.partition(sep)] when [sep] occurs: the text before the leftmost
    occurrence of [sep] and the text after it; [None] when it does not occur. *)
Fixpoint find_first (sep s : str) : option (str * str) :=
  if startswith sep s then Some ([], skipn (length sep) s)
  else
    match s with
    | [] => None
    | c :: s' =>
        match find_first sep s' with
        | Some (b, a) => Some (c :: b, a)
        | None => None
        end
    end.

(** [s.split(sep, maxsplit)] for a non-empty [sep] and [maxsplit >= 0]:
    at most [maxsplit] cuts, taken from the left. *)
Fixpoint split (sep : str) (maxsplit : nat) (s : str) : list str :=
  match maxsplit with
  | O => [s]
  | S m =>
      match find_first sep s with
      | Some (b, a) => b :: split sep m a
      | None => [s]
      end
  end.

(** [l[i]] for [i >= 0]. *)
Definition getitem {A : Type} (l : list A) (i : nat) : result A :=
  match nth_error l i with
  | Some a => Ok a
  | None => Raise IndexError
  end.

(** The line boundaries of [str.splitlines]: LF, VT, FF, CR, FS, GS, RS,
    NEL, LINE SEPARATOR and PARAGRAPH SEPARATOR. *)
Definition is_linebreak (c : char) : bool :=
  (N.eqb c 10 || N.eqb c 11 || N.eqb c 12 || N.eqb c 13 ||
   N.eqb c 28 || N.eqb c 29 || N.eqb c 30 ||
   N.eqb c 133 || N.eqb c 8232 || N.eqb c 8233)%bool.

(** [s.splitlines()], scanning left to right; [cur] holds the characters of
    the current line, last one first.  CR LF counts as one boundary, and no
    empty line is produced after the last boundary. *)
Fixpoint splitlines_from (cur : str) (s : str) : list str :=
  match s with
  | [] =>
      match cur with
      | [] => []
      | _ :: _ => [rev cur]
      end
  | c :: rest =>
      if is_linebreak c then
        rev cur ::
          match rest with
          | d :: rest' =>
              if N.eqb c 13 && N.eqb d 10 then splitlines_from [] rest'
              else splitlines_from [] rest
          | [] => splitlines_from [] rest
          end
      else splitlines_from (c :: cur) rest
  end.

Definition splitlines (s : str) : list str := splitlines_from [] s.

(** Unicode case data is not part of the script: [to_upper_full c] is the
    full uppercase mapping of a code point outside ASCII, one to three code
    points long. *)
Class UnicodeData := { to_upper_full : char -> list char }.

Definition is_ascii (c : char) : bool := N.ltb c 128.

(** Uppercase of one code point: ASCII [a-z] moves to [A-Z], every other
    ASCII code point stays, the rest follows the Unicode data. *)
Definition upper_char `{UnicodeData} (c : char) : list char :=
  if is_ascii c then
    [if N.leb 97 c && N.leb c 122 then (c - 32)%N else c]
  else to_upper_full c.

(** [s.upper()]. *)
Definition upper `{UnicodeData} (s : str) : str := flat_map upper_char s.

(* ================================================================== *)
(** ** The script: constants *)

Definition F_RPI_INFO : str := py "/proc/cpuinfo".
Definition RPI_SERIAL_PATTERN : str := py "Serial".
Definition RPI_REVISION_PATTERN : str := py "Revision".
Definition EUI_FIRST_OCTECT_LOCAL_ADMINISTRED : str := py "02".
Definition INVALID_EUI : str := py "FFFFFFFFFFFFFFFF".
Definition EUI_CHARS_LENGTH : nat := 16.

(** The separator of [line.split(": ", 1)]. *)
Definition FIELD_SEPARATOR : str := py ": ".

(* ================================================================== *)
(** ** The script: reading the information file *)

(** What the operating system answers to [open(path, "r", encoding="utf-8")]
    and to [f.read()] on the handle obtained.  Closing a handle that was
    opened for reading is taken to succeed. *)
Record file_io : Type := {
  handle : Type;
  io_open : str -> result handle;
  io_read : handle -> result str
}.

(** [with open(file_path, "r", encoding="utf-8") as f: read = f.read()]. *)
Definition with_open_read (io : file_io) (file_path : str) : result str :=
  f <- io_open io file_path ;; io_read io f.

Definition file_read_text (io : file_io) (file_path : str) : result str :=
  try_except_Exception (with_open_read io file_path) (Ok []).

(* ================================================================== *)
(** ** The script: field extraction *)

(** The loop shared by the two extractors,
    [for line in lines: if pattern in line: value = line.split(": ", 1)[1]],
    started with [value] and returning the value it ends with. *)
Fixpoint for_line_in (pattern : str) (lines : list str) (value : str) : result str :=
  match lines with
  | [] => Ok value
  | line :: rest =>
      if contains pattern line then
        v <- getitem (split FIELD_SEPARATOR 1 line) 1 ;;
        for_line_in pattern rest v
      else for_line_in pattern rest value
  end.

Definition get_rpi_serial_number (rpi_info : str) : result str :=
  let serial_num := [] in
  let rpi_info_lines := splitlines rpi_info in
  for_line_in RPI_SERIAL_PATTERN rpi_info_lines serial_num.

Definition get_rpi_revision (rpi_info : str) : result str :=
  let rev := [] in
  let rpi_info_lines := splitlines rpi_info in
  for_line_in RPI_REVISION_PATTERN rpi_info_lines rev.

(* ================================================================== *)
(** ** The script: EUI encoding *)

Definition generate_eui `{UnicodeData} (rpi_info : str) : result str :=
  rpi_serial_number <- get_rpi_serial_number rpi_info ;;
  rpi_revision <- get_rpi_revision rpi_info ;;
  if negb (length rpi_serial_number =? 16) && negb (length rpi_serial_number =? 8)
  then Ok INVALID_EUI
  else if negb (length rpi_revision =? 6)
  then Ok INVALID_EUI
  else
    let rpi_serial_number :=
      if length rpi_serial_number =? 16 then skipn 8 rpi_serial_number
      else rpi_serial_number in
    let eui := EUI_FIRST_OCTECT_LOCAL_ADMINISTRED ++ rpi_revision ++ rpi_serial_number in
    if negb (length eui =? EUI_CHARS_LENGTH)
    then Ok INVALID_EUI
    else Ok (upper eui).

(** A fragment of the Unicode data, for running the encoder: U+00DF (sharp s)
    uppercases to the two letters SS; the other code points are left alone. *)
Definition sharp_s_only : UnicodeData :=
  {| to_upper_full := fun c => if N.eqb c 223 then [83%N; 83%N] else [c] |}.

(* ================================================================== *)
(** ** The script: return codes, [main] and the entry point *)

(** Program return codes. *)
Module RC.
Definition OK : Z := 0.
Definition FAIL : Z := (-1).
Definition FAIL_BAD_CFG : Z := (-2).
End RC.

(** What is in flight when a statement does not run to its end:
    [SystemExit(return_code)], raised by [sys.exit], or one of the other
    exceptions. *)
Inductive raised : Type :=
  | Exit (return_code : Z)
  | Exc (e : exception).

Inductive outcome (A : Type) : Type :=
  | Continue (a : A)
  | Raised (r : raised).
Arguments Continue {A} a.
Arguments Raised {A} r.

(** A statement of the driver: from the standard output written so far to
    the standard output after it, and how it ended. *)
Definition stmt (A : Type) : Type := str -> str * outcome A.

Definition ret {A : Type} (a : A) : stmt A := fun out => (out, Continue a).

Definition and_then {A B : Type} (m : stmt A) (k : A -> stmt B) : stmt B :=
  fun out =>
    match m out with
    | (out', Continue a) => k a out'
    | (out', Raised r) => (out', Raised r)
    end.

Notation "x <~ m ;; k" := (and_then m (fun x => k))
  (at level 61, m at next level, right associativity).

(** A call of one of the functions above: its value, or its exception. *)
Definition call {A : Type} (r : result A) : stmt A :=
  fun out =>
    match r with
    | Ok a => (out, Continue a)
    | Raise e => (out, Raised (Exc e))
    end.

(** [print(s)]: the text and a line feed; the write is taken to succeed. *)
Definition print (s : str) : stmt unit :=
  fun out => (out ++ s ++ [10%N], Continue tt).

(** [sys.exit(code)] raises [SystemExit(code)]. *)
Definition sys_exit (code : Z) : stmt unit :=
  fun out => (out, Raised (Exit code)).

Definition program_exit (return_code : Z) : stmt unit := sys_exit return_code.

(** [a == b] on strings. *)
Fixpoint str_eqb (a b : str) : bool :=
  match a, b with
  | [], [] => true
  | x :: a', y :: b' => N.eqb x y && str_eqb a' b'
  | _, _ => false
  end.

Definition main `{UnicodeData} (io : file_io) (argc : nat) (argv : list str)
  : stmt unit :=
  rpi_info <~ call (file_read_text io F_RPI_INFO) ;;
  _ <~ (if str_eqb rpi_info [] then
          _ <~ print INVALID_EUI ;; program_exit RC.FAIL
        else ret tt) ;;
  eui <~ call (generate_eui rpi_info) ;;
  _ <~ (if str_eqb eui INVALID_EUI then
          _ <~ print INVALID_EUI ;; program_exit RC.FAIL
        else ret tt) ;;
  _ <~ print eui ;;
  program_exit RC.OK.

(** [try: body  except KeyboardInterrupt: handler]. *)
Definition try_except_KeyboardInterrupt (body handler : stmt unit) : stmt unit :=
  fun out =>
    match body out with
    | (out', Raised (Exc KeyboardInterrupt)) => handler out'
    | r => r
    end.

(** The block under [if __name__ == "__main__"], run with the command line
    [sys_argv]. *)
Definition script `{UnicodeData} (io : file_io) (sys_argv : list str) : stmt unit :=
  try_except_KeyboardInterrupt
    (main io (length (skipn 1 sys_argv)) (skipn 1 sys_argv))
    (program_exit RC.OK).

(** A run of the script: nothing written yet when it starts. *)
Definition run `{UnicodeData} (io : file_io) (sys_argv : list str)
  : str * outcome unit :=
  script io sys_argv [].

(* ================================================================== *)
(** ** Specification vocabulary *)

(** [p] occurs in [s]: some text, then [p], then some text. *)
Definition occurs_in (p s : str) : Prop :=
  exists b a, s = b ++ p ++ a.

(** [a] is everything after the first occurrence of [sep] in [s]. *)
Definition after_first (sep s a : str) : Prop :=
  exists b, s = b ++ sep ++ a /\
            forall b' a', s = b' ++ sep ++ a' -> length b <= length b'.

(** [l] is the last line of [lines] in which [p] occurs. *)
Definition last_line_with (p : str) (lines : list str) (l : str) : Prop :=
  exists before after,
    lines = before ++ l :: after /\ occurs_in p l /\
    forall l', In l' after -> ~ occurs_in p l'.

(** The value the specification gives an extractor on [lines]: empty when
    [p] occurs in no line, otherwise what follows the first separator of the
    last line with [p]. *)
Definition last_match_value (p : str) (lines : list str) (v : str) : Prop :=
  ((forall l, In l lines -> ~ occurs_in p l) /\ v = []) \/
  (exists l, last_line_with p lines l /\ after_first FIELD_SEPARATOR l v).

(** The two fields and their extractors, as the specification names them. *)
Inductive field : Type := Serial | Revision.

Definition label (f : field) : str :=
  match f with
  | Serial => RPI_SERIAL_PATTERN
  | Revision => RPI_REVISION_PATTERN
  end.

Definition extract (f : field) (rpi_info : str) : result str :=
  match f with
  | Serial => get_rpi_serial_number rpi_info
  | Revision => get_rpi_revision rpi_info
  end.

Definition is_upper_hex_digit (c : char) : bool :=
  (N.leb 48 c && N.leb c 57) || (N.leb 65 c && N.leb c 70).

Definition is_hex_digit (c : char) : bool :=
  is_upper_hex_digit c || (N.leb 97 c && N.leb c 102).

(** No character of [s] is a line boundary. *)
Definition no_linebreak (s : str) : bool :=
  forallb (fun c => negb (is_linebreak c)) s.

(** The serial number as the encoder uses it: the last 8 characters of a
    16-character serial, the serial itself otherwise. *)
Definition serial_tail (rpi_serial_number : str) : str :=
  if length rpi_serial_number =? 16 then skipn 8 rpi_serial_number
  else rpi_serial_number.

(* ================================================================== *)
(** ** Sample inputs *)

(** The text whose lines are [ls], each ended by a line feed. *)
Definition unlines (ls : list str) : str := flat_map (fun l => l ++ [10%N]) ls.

Definition cpuinfo_serial16 : str :=
  unlines [py "Hardware : BCM2835"; py "Revision : A03140";
           py "Serial : 1234567890ABCDEF"; py "Model : Raspberry Pi 3 Model B"].

Definition cpuinfo_serial8 : str :=
  unlines [py "Revision : a03140"; py "Serial : 90ABCDEF"].

Definition cpuinfo_two_serials : str :=
  unlines [py "Serial : 00000000AAAAAAAA"; py "Revision : A03140";
           py "Serial : 1234567890ABCDEF"].

Definition cpuinfo_other_prefix : str :=
  unlines [py "Revision : A03140"; py "Serial : 0000000090ABCDEF"].

Definition cpuinfo_short_revision : str :=
  unlines [py "Revision : A0314"; py "Serial : 90ABCDEF"].


Definition cpuinfo_serial_no_separator : str :=
  unlines [py "Serial:90ABCDEF"; py "Revision : A03140"].

Definition cpuinfo_revision_no_separator : str :=
  unlines [py "Serial : 90ABCDEF"; py "Revision=A03140"].

Definition cpuinfo_not_hex : str :=
  unlines [py "Serial : ZZZZZZZZ"; py "Revision : GGGGGG"].

(** Six sharp s (U+00DF) as the revision. *)
Definition cpuinfo_sharp_s : str :=
  unlines [py "Serial : 90ABCDEF";
           py "Revision : " ++ [223%N; 223%N; 223%N; 223%N; 223%N; 223%N]].

(** A file system with one readable file, one missing file, one file that
    cannot be opened by this user, and one whose bytes are not UTF-8. *)
Definition sample_io : file_io :=
  {| handle := nat;
     io_open := fun path =>
       if startswith (py "/proc/cpuinfo") path then Ok 0
       else if startswith (py "/etc/shadow") path then Raise PermissionError
       else if startswith (py "/bin/ls") path then Ok 1
       else Raise FileNotFoundError;
     io_read := fun h =>
       match h with
       | 0 => Ok cpuinfo_serial16
       | _ => Raise UnicodeDecodeError
       end |}.

(** A file system in which every file holds [text]. *)
Definition io_content (text : str) : file_io :=
  {| handle := unit;
     io_open := fun _ => Ok tt;
     io_read := fun _ => Ok text |}.

(** A file system in which every [open] raises [e]. *)
Definition io_failing (e : exception) : file_io :=
  {| handle := unit;
     io_open := fun _ => Raise e;
     io_read := fun _ => Ok [] |}.

Definition cpuinfo_both_labels_no_separator : str :=
  unlines [py "Serial"; py "Revision : A03140"; py "Revision"].

Definition cpuinfo_serial8_uppercase : str :=
  unlines [py "Revision : A03140"; py "Serial : 90ABCDEF"].

Definition cpuinfo_lowercase : str :=
  unlines [py "Revision : a03140"; py "Serial : 1234567890abcdef"].

(* ================================================================== *)
(** ** Facts about the string methods *)

Section StringFacts.

Lemma startswith_app (p r : str) : startswith p (p ++ r) = true.
Proof.
  induction p as [|a p IH]; simpl; [reflexivity|].
  now rewrite N.eqb_refl, IH.
Qed.

Lemma startswith_skipn (p s : str) :
  startswith p s = true -> s = p ++ skipn (length p) s.
Proof.
  revert s; induction p as [|a p IH]; intros [|b s]; simpl; try discriminate; auto.
  intros H. apply andb_true_iff in H as [Hab Hps].
  apply N.eqb_eq in Hab. subst b. f_equal. now apply IH.
Qed.

Lemma startswith_iff (p s : str) :
  startswith p s = true <-> exists r, s = p ++ r.
Proof.
  split.
  - intros H. eexists. now apply startswith_skipn.
  - intros [r ->]. apply startswith_app.
Qed.

Lemma contains_eq (p s : str) :
  contains p s =
  startswith p s || match s with [] => false | _ :: s' => contains p s' end.
Proof. destruct s; reflexivity. Qed.

Lemma find_first_eq (sep s : str) :
  find_first sep s =
  if startswith sep s then Some ([], skipn (length sep) s)
  else match s with
       | [] => None
       | c :: s' =>
           match find_first sep s' with
           | Some (b, a) => Some (c :: b, a)
           | None => None
           end
       end.
Proof. destruct s; reflexivity. Qed.

(** [in] is substring occurrence. *)
Lemma contains_spec (p s : str) : contains p s = true <-> occurs_in p s.
Proof.
  split.
  - induction s as [|c s IH]; rewrite contains_eq; intros H;
      apply orb_true_iff in H as [H|H]; try discriminate.
    + exists [], (skipn (length p) []). now apply startswith_skipn.
    + exists [], (skipn (length p) (c :: s)). now apply startswith_skipn.
    + destruct (IH H) as (b & a & ->). now exists (c :: b), a.
  - intros (b & a & ->). induction b as [|c b IH].
    + rewrite contains_eq. simpl. now rewrite startswith_app.
    + change ((c :: b) ++ p ++ a) with (c :: (b ++ p ++ a)).
      rewrite contains_eq, IH. apply orb_true_r.
Qed.

Lemma contains_false (p s : str) : contains p s = false <-> ~ occurs_in p s.
Proof.
  rewrite <- contains_spec. now destruct (contains p s).
Qed.

Lemma find_first_Some (sep s b a : str) :
  find_first sep s = Some (b, a) -> s = b ++ sep ++ a.
Proof.
  revert b. induction s as [|c s IH]; intros b; rewrite find_first_eq;
    destruct (startswith sep _) eqn:Hs; try discriminate.
  - intros [= <- <-]. now apply startswith_skipn.
  - intros [= <- <-]. now apply startswith_skipn.
  - destruct (find_first sep s) as [[b0 a0]|]; try discriminate.
    intros [= <- <-]. simpl. f_equal. now apply IH.
Qed.

Lemma find_first_leftmost (sep s b a : str) :
  find_first sep s = Some (b, a) ->
  forall b' a', s = b' ++ sep ++ a' -> length b <= length b'.
Proof.
  revert b. induction s as [|c s IH]; intros b; rewrite find_first_eq;
    destruct (startswith sep _) eqn:Hs; try discriminate;
    try (intros [= <- <-]; simpl; intros; lia).
  destruct (find_first sep s) as [[b0 a0]|] eqn:Hf; try discriminate.
  intros [= <- <-] [|c' b'] a' E.
  - simpl in E. rewrite E, startswith_app in Hs. discriminate.
  - simpl in E. injection E as _ E. simpl.
    apply le_n_S. now apply (IH b0 eq_refl b' a').
Qed.

Lemma find_first_after (sep s b a : str) :
  find_first sep s = Some (b, a) -> after_first sep s a.
Proof.
  intros H. exists b. split.
  - now apply find_first_Some.
  - now apply find_first_leftmost with (a := a).
Qed.

Lemma find_first_None (sep s : str) :
  find_first sep s = None <-> contains sep s = false.
Proof.
  induction s as [|c s IH]; rewrite find_first_eq, contains_eq;
    destruct (startswith sep _); simpl; try easy.
  destruct (find_first sep s) as [[b0 a0]|]; split; try easy.
  - intros H. apply IH in H. discriminate.
  - intros _. now apply IH.
Qed.

Lemma find_first_occurs (sep s : str) :
  occurs_in sep s -> exists b a, find_first sep s = Some (b, a).
Proof.
  intros H. apply contains_spec in H.
  destruct (find_first sep s) as [[b a]|] eqn:E; eauto.
  apply find_first_None in E. congruence.
Qed.

(** [s.split(sep, 1)[1]] is what follows the first [sep], and faults when
    [sep] does not occur. *)
Lemma split_getitem_Some (sep s b a : str) :
  find_first sep s = Some (b, a) -> getitem (split sep 1 s) 1 = Ok a.
Proof. intros H. simpl. now rewrite H. Qed.

Lemma split_getitem_None (sep s : str) :
  find_first sep s = None -> getitem (split sep 1 s) 1 = Raise IndexError.
Proof. intros H. simpl. now rewrite H. Qed.

End StringFacts.

(* ================================================================== *)
(** ** Facts about the extraction loop *)

Section LoopFacts.

Variable pattern : str.

Lemma app_inj_length (A : Type) (b b' x y : list A) :
  length b = length b' -> b ++ x = b' ++ y -> b = b' /\ x = y.
Proof.
  revert b'. induction b as [|c b IH]; intros [|c' b'] Hl E;
    simpl in *; try discriminate; auto.
  injection E as -> E. injection Hl as Hl.
  destruct (IH b' Hl E) as [-> ->]. auto.
Qed.

(** The value after the first separator is determined by the line. *)
Lemma after_first_find (sep s v : str) :
  after_first sep s v -> exists b, find_first sep s = Some (b, v).
Proof.
  intros (b' & E & Hmin).
  destruct (find_first_occurs sep s) as (b & a & Hf).
  { now exists b', v. }
  pose proof (find_first_Some _ _ _ _ Hf) as E'.
  pose proof (find_first_leftmost _ _ _ _ Hf _ _ E) as Hle.
  pose proof (Hmin _ _ E') as Hge.
  assert (Hlen : length b = length b') by lia.
  rewrite E in E'. symmetry in E'.
  destruct (app_inj_length _ _ _ _ _ Hlen E') as [_ E2].
  apply app_inv_head in E2. subst a. now exists b.
Qed.

Lemma for_line_in_app (lines1 lines2 : list str) (value : str) :
  for_line_in pattern (lines1 ++ lines2) value =
  (v <- for_line_in pattern lines1 value ;; for_line_in pattern lines2 v).
Proof.
  revert value. induction lines1 as [|line rest IH]; intros value;
    cbn [for_line_in app bind]; [reflexivity|].
  destruct (contains pattern line); [|apply IH].
  destruct (getitem _ 1); cbn [bind]; [apply IH | reflexivity].
Qed.

(** Lines without the label leave the value as it is. *)
Lemma for_line_in_no_match (lines : list str) (value : str) :
  (forall l, In l lines -> ~ occurs_in pattern l) ->
  for_line_in pattern lines value = Ok value.
Proof.
  induction lines as [|line rest IH]; intros H; cbn [for_line_in]; [reflexivity|].
  assert (Hc : contains pattern line = false).
  { apply contains_false, H. now left. }
  rewrite Hc. apply IH. intros l Hl. apply H. now right.
Qed.

(** When every line with the label has the separator, the loop returns. *)
Lemma for_line_in_returns (lines : list str) (value : str) :
  (forall l, In l lines -> occurs_in pattern l -> occurs_in FIELD_SEPARATOR l) ->
  exists v, for_line_in pattern lines value = Ok v.
Proof.
  revert value. induction lines as [|line rest IH]; intros value H;
    cbn [for_line_in]; [now exists value|].
  assert (Hrest : forall l, In l rest -> occurs_in pattern l ->
                            occurs_in FIELD_SEPARATOR l).
  { intros l Hl. apply H. now right. }
  destruct (contains pattern line) eqn:Hc; [|now apply IH].
  apply contains_spec in Hc.
  destruct (find_first_occurs _ _ (H line (or_introl eq_refl) Hc)) as (b & a & Hf).
  rewrite (split_getitem_Some _ _ _ _ Hf). cbn [bind]. now apply IH.
Qed.

(** A line with the label and without the separator makes the loop fault. *)
Lemma for_line_in_faults (lines : list str) (value : str) (l : str) :
  In l lines -> occurs_in pattern l -> ~ occurs_in FIELD_SEPARATOR l ->
  for_line_in pattern lines value = Raise IndexError.
Proof.
  intros Hin Hp Hs. apply contains_spec in Hp. apply contains_false in Hs.
  revert value. induction lines as [|line rest IH]; intros value;
    [contradiction|]. cbn [for_line_in].
  destruct (contains pattern line) eqn:Hc.
  - destruct (find_first FIELD_SEPARATOR line) as [[b a]|] eqn:Hf.
    + rewrite (split_getitem_Some _ _ _ _ Hf). cbn [bind].
      destruct Hin as [-> | Hin]; [| now apply IH].
      apply find_first_None in Hs. congruence.
    + now rewrite (split_getitem_None _ _ Hf).
  - destruct Hin as [-> | Hin]; [congruence | now apply IH].
Qed.

(** Last match wins: the loop returns what follows the first separator of
    the last line with the label. *)
Lemma for_line_in_last (lines : list str) (value l v : str) :
  (forall l, In l lines -> occurs_in pattern l -> occurs_in FIELD_SEPARATOR l) ->
  last_line_with pattern lines l -> after_first FIELD_SEPARATOR l v ->
  for_line_in pattern lines value = Ok v.
Proof.
  intros H (before & after & -> & Hp & Hafter) Hv.
  rewrite for_line_in_app.
  destruct (for_line_in_returns before value) as (v0 & ->).
  { intros l0 Hl0. apply H. apply in_or_app. now left. }
  cbn [bind for_line_in].
  apply contains_spec in Hp. rewrite Hp.
  destruct (after_first_find _ _ _ Hv) as (b & Hf).
  rewrite (split_getitem_Some _ _ _ _ Hf). cbn [bind].
  now apply for_line_in_no_match.
Qed.

(** Either no line has the label, or there is a last one. *)
Lemma last_line_with_cases (lines : list str) :
  (forall l, In l lines -> ~ occurs_in pattern l) \/
  (exists l, last_line_with pattern lines l).
Proof.
  induction lines as [|line rest [IH | (l & before & after & -> & Hp & Ha)]].
  - left. intros l [].
  - destruct (contains pattern line) eqn:Hc.
    + right. exists line, [], rest. apply contains_spec in Hc. auto.
    + left. intros l [<- | Hl]; [now apply contains_false | now apply IH].
  - right. exists l, (line :: before), after. auto.
Qed.

Lemma for_line_in_spec (lines : list str) :
  (forall l, In l lines -> occurs_in pattern l -> occurs_in FIELD_SEPARATOR l) ->
  (exists v, last_match_value pattern lines v) /\
  (forall v, last_match_value pattern lines v ->
             for_line_in pattern lines [] = Ok v).
Proof.
  intros H. split.
  - destruct (last_line_with_cases lines) as [Hno | (l & Hl)].
    + exists []. left. auto.
    + assert (Hin : In l lines /\ occurs_in pattern l).
      { destruct Hl as (before & after & -> & Hp & _). split; [|exact Hp].
        apply in_or_app. right. now left. }
      destruct (find_first_occurs _ _ (H l (proj1 Hin) (proj2 Hin))) as (b & a & Hf).
      exists a. right. exists l. split; [exact Hl|].
      now apply find_first_after with (b := b).
  - intros v [[Hno ->] | (l & Hl & Hv)].
    + now apply for_line_in_no_match.
    + now apply for_line_in_last with (l := l).
Qed.

(** When the label occurs in one line only (possibly repeated), that line
    gives the value. *)
Lemma for_line_in_only_line (lines : list str) (L b v : str) :
  occurs_in pattern L -> find_first FIELD_SEPARATOR L = Some (b, v) ->
  (forall l, In l lines -> occurs_in pattern l -> l = L) ->
  In L lines ->
  for_line_in pattern lines [] = Ok v.
Proof.
  intros Hp Hf Honly Hin.
  assert (Hsep : forall l, In l lines -> occurs_in pattern l ->
                           occurs_in FIELD_SEPARATOR l).
  { intros l Hl Hpl. rewrite (Honly l Hl Hpl).
    exists b, v. now apply find_first_Some. }
  apply (proj2 (for_line_in_spec lines Hsep)).
  right. exists L. split; [|now apply find_first_after with (b := b)].
  destruct (last_line_with_cases lines) as [Hno | (l & Hl)].
  - now destruct (Hno L Hin).
  - assert (E : l = L); [|now subst l].
    destruct Hl as (before & after & -> & Hpl & _).
    apply Honly; [|exact Hpl]. apply in_or_app. right. now left.
Qed.

End LoopFacts.

(* ================================================================== *)
(** ** Facts about the encoder *)

Section EncoderFacts.

Context {U : UnicodeData}.

Lemma Ok_inj (A : Type) (a b : A) : Ok a = Ok b -> a = b.
Proof. intros H. now injection H. Qed.

Lemma upper_app (a b : str) : upper (a ++ b) = upper a ++ upper b.
Proof. apply flat_map_app. Qed.

Lemma upper_char_ascii (c : char) :
  is_ascii c = true -> exists c', upper_char c = [c'].
Proof. intros H. unfold upper_char. rewrite H. eauto. Qed.

(** Uppercasing ASCII text keeps its length. *)
Lemma upper_ascii_length (s : str) :
  forallb is_ascii s = true -> length (upper s) = length s.
Proof.
  induction s as [|c s IH]; [reflexivity|].
  cbn [forallb]. intros H. apply andb_true_iff in H as [Hc Hs].
  change (upper (c :: s)) with (upper_char c ++ upper s).
  destruct (upper_char_ascii c Hc) as [c' ->]. simpl. now rewrite IH.
Qed.

Lemma between_iff (lo hi c : N) :
  N.leb lo c && N.leb c hi = true <-> (lo <= c /\ c <= hi)%N.
Proof. now rewrite andb_true_iff, !N.leb_le. Qed.

Lemma is_upper_hex_digit_iff (c : char) :
  is_upper_hex_digit c = true <-> (48 <= c <= 57 \/ 65 <= c <= 70)%N.
Proof.
  unfold is_upper_hex_digit. now rewrite orb_true_iff, !between_iff.
Qed.

Lemma is_hex_digit_iff (c : char) :
  is_hex_digit c = true <->
  (48 <= c <= 57 \/ 65 <= c <= 70 \/ 97 <= c <= 102)%N.
Proof.
  unfold is_hex_digit.
  rewrite orb_true_iff, is_upper_hex_digit_iff, between_iff. tauto.
Qed.

Lemma is_hex_digit_ascii (c : char) : is_hex_digit c = true -> is_ascii c = true.
Proof.
  rewrite is_hex_digit_iff. intros H. apply N.ltb_lt. lia.
Qed.

Lemma upper_char_hex (c : char) :
  is_hex_digit c = true ->
  exists c', upper_char c = [c'] /\ is_upper_hex_digit c' = true.
Proof.
  intros H. unfold upper_char. rewrite (is_hex_digit_ascii c H).
  eexists. split; [reflexivity|].
  apply is_hex_digit_iff in H.
  destruct (N.leb 97 c && N.leb c 122) eqn:E; apply is_upper_hex_digit_iff.
  - apply between_iff in E. lia.
  - assert (Hn : ~ (97 <= c /\ c <= 122)%N).
    { rewrite <- between_iff, E. discriminate. }
    lia.
Qed.

(** Uppercasing hexadecimal digits gives uppercase hexadecimal digits. *)
Lemma upper_hex (s : str) :
  forallb is_hex_digit s = true -> forallb is_upper_hex_digit (upper s) = true.
Proof.
  induction s as [|c s IH]; [reflexivity|].
  cbn [forallb]. intros H. apply andb_true_iff in H as [Hc Hs].
  change (upper (c :: s)) with (upper_char c ++ upper s).
  destruct (upper_char_hex c Hc) as (c' & -> & Hc').
  cbn [app forallb]. now rewrite Hc', IH.
Qed.

Lemma forallb_hex_ascii (s : str) :
  forallb is_hex_digit s = true -> forallb is_ascii s = true.
Proof.
  rewrite !forallb_forall. intros H c Hc. now apply is_hex_digit_ascii, H.
Qed.

Lemma serial_tail_length (sn : str) :
  length sn = 8 \/ length sn = 16 -> length (serial_tail sn) = 8.
Proof.
  unfold serial_tail. intros [H|H].
  - now rewrite H.
  - rewrite H. cbn [Nat.eqb]. rewrite length_skipn, H. reflexivity.
Qed.

Lemma eui_length (sn rev : str) :
  length sn = 8 \/ length sn = 16 -> length rev = 6 ->
  length (EUI_FIRST_OCTECT_LOCAL_ADMINISTRED ++ rev ++ serial_tail sn)
  = EUI_CHARS_LENGTH.
Proof.
  intros Hs Hr. rewrite !length_app, Hr, (serial_tail_length sn Hs). reflexivity.
Qed.

(** The leading ["02"] survives uppercasing, so an encoded value is never
    the sentinel. *)
Lemma upper_eui_not_invalid (rest : str) :
  upper (EUI_FIRST_OCTECT_LOCAL_ADMINISTRED ++ rest) <> INVALID_EUI.
Proof. rewrite upper_app. discriminate. Qed.

(** The encoder in terms of the two extracted fields: once both lengths
    are accepted, the value returned is the uppercased assembly. *)
Lemma generate_eui_fields (rpi_info sn rev : str) :
  get_rpi_serial_number rpi_info = Ok sn ->
  get_rpi_revision rpi_info = Ok rev ->
  generate_eui rpi_info =
  if (negb (length sn =? 16) && negb (length sn =? 8)) || negb (length rev =? 6)
  then Ok INVALID_EUI
  else Ok (upper (EUI_FIRST_OCTECT_LOCAL_ADMINISTRED ++ rev ++ serial_tail sn)).
Proof.
  intros Hs Hr. unfold generate_eui. rewrite Hs, Hr. cbn [bind].
  destruct (negb (length sn =? 16) && negb (length sn =? 8)) eqn:E1;
    [reflexivity|].
  destruct (negb (length rev =? 6)) eqn:E2; [reflexivity|].
  cbv zeta. cbn [orb].
  change (if length sn =? 16 then skipn 8 sn else sn) with (serial_tail sn).
  rewrite eui_length; [reflexivity | | ].
  - apply andb_false_iff in E1 as [E1|E1]; apply negb_false_iff in E1;
      apply Nat.eqb_eq in E1; auto.
  - apply negb_false_iff in E2. now apply Nat.eqb_eq.
Qed.

(** A returned encoder value comes from two returned extractions. *)
Lemma generate_eui_Ok_inv (rpi_info v : str) :
  generate_eui rpi_info = Ok v ->
  exists sn rev, get_rpi_serial_number rpi_info = Ok sn /\
                 get_rpi_revision rpi_info = Ok rev.
Proof.
  unfold generate_eui.
  destruct (get_rpi_serial_number rpi_info) as [sn|]; [|discriminate].
  destruct (get_rpi_revision rpi_info) as [rev|]; [|discriminate].
  eauto.
Qed.

End EncoderFacts.

(* ================================================================== *)
(** ** Field extraction: last match wins, and the missing separator *)

(** C3. When every line with the label of a field ([Serial] for
    [get_rpi_serial_number], [Revision] for [get_rpi_revision]) also has the
    separator [": "], the extractor returns the value the specification
    gives: what follows the first [": "] of the last line with the label,
    and the empty string when no line has the label.  Such a value exists. *)
Theorem extract_last_match (f : field) (rpi_info : str) :
  (forall l, In l (splitlines rpi_info) ->
             occurs_in (label f) l -> occurs_in FIELD_SEPARATOR l) ->
  (exists v, last_match_value (label f) (splitlines rpi_info) v) /\
  (forall v, last_match_value (label f) (splitlines rpi_info) v ->
             extract f rpi_info = Ok v).
Proof.
  intros H.
  destruct (for_line_in_spec (label f) (splitlines rpi_info) H) as [Hex Hv].
  split; [exact Hex|].
  intros v Hspec. destruct f; apply Hv, Hspec.
Qed.

(** With two [Serial] lines the later one gives the value. *)
Lemma extract_last_match_witness :
  get_rpi_serial_number cpuinfo_two_serials = Ok (py "1234567890ABCDEF").
Proof.
  apply (proj2 (extract_last_match Serial cpuinfo_two_serials
    ltac:(intros l Hin _; apply contains_spec;
          vm_compute in Hin; destruct Hin as [<-|[<-|[<-|[]]]]; reflexivity))).
  right. exists (py "Serial : 1234567890ABCDEF"). split.
  - exists [py "Serial : 00000000AAAAAAAA"; py "Revision : A03140"], [].
    split; [reflexivity|]. split; [now apply contains_spec | intros l' []].
  - apply find_first_after with (b := py "Serial "). reflexivity.
Defined.

(** X1. Every text with a line that has the label and lacks the separator
    makes the extractor raise [IndexError], wherever that line stands and
    whatever the other lines are. *)
Lemma extract_faults (f : field) (rpi_info l : str) :
  In l (splitlines rpi_info) -> occurs_in (label f) l ->
  ~ occurs_in FIELD_SEPARATOR l ->
  extract f rpi_info = Raise IndexError.
Proof.
  intros Hin Hp Hs.
  destruct f; exact (for_line_in_faults _ _ [] l Hin Hp Hs).
Qed.

(** C8. For each field there is a text with a line that contains the label
    and no [": "], on which the extractor raises [IndexError] instead of
    returning a value. *)
Theorem extract_missing_separator_faults (f : field) :
  exists rpi_info l,
    In l (splitlines rpi_info) /\ occurs_in (label f) l /\
    ~ occurs_in FIELD_SEPARATOR l /\
    extract f rpi_info = Raise IndexError.
Proof.
  destruct f.
  - exists cpuinfo_serial_no_separator, (py "Serial:90ABCDEF").
    split; [vm_compute; auto|]. split; [now apply contains_spec|].
    split; [now apply contains_false | reflexivity].
  - exists cpuinfo_revision_no_separator, (py "Revision=A03140").
    split; [vm_compute; auto|]. split; [now apply contains_spec|].
    split; [now apply contains_false | reflexivity].
Qed.

(* ================================================================== *)
(** ** Reading the information file *)

(** C9. Whatever the path: when opening fails, or opening succeeds and
    reading fails (with any error of class [Exception]: a missing file, a
    refused permission, an I/O or decoding error), [file_read_text] returns
    the empty string and raises nothing; when both succeed it returns the
    text that was read. *)
Theorem file_read_text_fail_soft (io : file_io) (file_path : str) :
  (forall e, io_open io file_path = Raise e -> is_Exception e = true ->
             file_read_text io file_path = Ok []) /\
  (forall f e, io_open io file_path = Ok f -> io_read io f = Raise e ->
               is_Exception e = true ->
               file_read_text io file_path = Ok []) /\
  (forall f s, io_open io file_path = Ok f -> io_read io f = Ok s ->
               file_read_text io file_path = Ok s).
Proof.
  unfold file_read_text, with_open_read. repeat split.
  - intros e -> He. cbn [bind try_except_Exception]. now rewrite He.
  - intros f e -> Hr He. cbn [bind]. rewrite Hr.
    cbn [try_except_Exception]. now rewrite He.
  - intros f s -> Hr. cbn [bind]. now rewrite Hr.
Qed.

Lemma file_read_text_fail_soft_witness :
  file_read_text sample_io (py "/etc/shadow") = Ok [] /\
  file_read_text sample_io (py "/bin/ls") = Ok [] /\
  file_read_text sample_io (py "/proc/cpuinfo") = Ok cpuinfo_serial16.
Proof.
  split; [|split].
  - apply (proj1 (file_read_text_fail_soft sample_io (py "/etc/shadow"))
             PermissionError); reflexivity.
  - apply (proj1 (proj2 (file_read_text_fail_soft sample_io (py "/bin/ls")))
             1 UnicodeDecodeError); reflexivity.
  - apply (proj2 (proj2 (file_read_text_fail_soft sample_io (py "/proc/cpuinfo")))
             0 cpuinfo_serial16); reflexivity.
Defined.

(* ================================================================== *)
(** ** The encoder *)

(** Closes a goal from [Hocc], which says that a label occurs in a given
    line where it does not. *)
Ltac no_label Hocc :=
  exfalso; apply contains_spec in Hocc; vm_compute in Hocc; discriminate Hocc.

Section Encoder.

Context {U : UnicodeData}.

(** C1. A text with the line [Serial : 1234567890ABCDEF] and the line
    [Revision : A03140], in which no other line contains [Serial] or
    [Revision], is encoded as [02A0314090ABCDEF]: the first 8 characters of
    the 16-character serial are dropped. *)
Theorem generate_eui_serial16 (rpi_info : str) :
  In (py "Serial : 1234567890ABCDEF") (splitlines rpi_info) ->
  In (py "Revision : A03140") (splitlines rpi_info) ->
  (forall l, In l (splitlines rpi_info) ->
             occurs_in RPI_SERIAL_PATTERN l \/ occurs_in RPI_REVISION_PATTERN l ->
             l = py "Serial : 1234567890ABCDEF" \/ l = py "Revision : A03140") ->
  generate_eui rpi_info = Ok (py "02A0314090ABCDEF").
Proof.
  intros Hs Hr Honly.
  assert (Hs1 : forall l, In l (splitlines rpi_info) ->
                occurs_in RPI_SERIAL_PATTERN l -> l = py "Serial : 1234567890ABCDEF").
  { intros l Hin Hocc. destruct (Honly l Hin (or_introl Hocc)) as [-> | ->];
      [reflexivity | no_label Hocc]. }
  assert (Hr1 : forall l, In l (splitlines rpi_info) ->
                occurs_in RPI_REVISION_PATTERN l -> l = py "Revision : A03140").
  { intros l Hin Hocc. destruct (Honly l Hin (or_intror Hocc)) as [-> | ->];
      [no_label Hocc | reflexivity]. }
  rewrite (generate_eui_fields rpi_info (py "1234567890ABCDEF") (py "A03140")).
  - reflexivity.
  - apply for_line_in_only_line
      with (L := py "Serial : 1234567890ABCDEF") (b := py "Serial ");
      [now apply contains_spec | reflexivity | exact Hs1 | exact Hs].
  - apply for_line_in_only_line
      with (L := py "Revision : A03140") (b := py "Revision ");
      [now apply contains_spec | reflexivity | exact Hr1 | exact Hr].
Qed.

(** C6. A text with the line [Serial : 90ABCDEF] and the line
    [Revision : a03140], in which no other line contains [Serial] or
    [Revision], is encoded as [02A0314090ABCDEF]: the 8-character serial
    is used whole and the lowercase revision comes out in uppercase. *)
Theorem generate_eui_serial8_lowercase (rpi_info : str) :
  In (py "Serial : 90ABCDEF") (splitlines rpi_info) ->
  In (py "Revision : a03140") (splitlines rpi_info) ->
  (forall l, In l (splitlines rpi_info) ->
             occurs_in RPI_SERIAL_PATTERN l \/ occurs_in RPI_REVISION_PATTERN l ->
             l = py "Serial : 90ABCDEF" \/ l = py "Revision : a03140") ->
  generate_eui rpi_info = Ok (py "02A0314090ABCDEF").
Proof.
  intros Hs Hr Honly.
  assert (Hs1 : forall l, In l (splitlines rpi_info) ->
                occurs_in RPI_SERIAL_PATTERN l -> l = py "Serial : 90ABCDEF").
  { intros l Hin Hocc. destruct (Honly l Hin (or_introl Hocc)) as [-> | ->];
      [reflexivity | no_label Hocc]. }
  assert (Hr1 : forall l, In l (splitlines rpi_info) ->
                occurs_in RPI_REVISION_PATTERN l -> l = py "Revision : a03140").
  { intros l Hin Hocc. destruct (Honly l Hin (or_intror Hocc)) as [-> | ->];
      [no_label Hocc | reflexivity]. }
  rewrite (generate_eui_fields rpi_info (py "90ABCDEF") (py "a03140")).
  - reflexivity.
  - apply for_line_in_only_line
      with (L := py "Serial : 90ABCDEF") (b := py "Serial ");
      [now apply contains_spec | reflexivity | exact Hs1 | exact Hs].
  - apply for_line_in_only_line
      with (L := py "Revision : a03140") (b := py "Revision ");
      [now apply contains_spec | reflexivity | exact Hr1 | exact Hr].
Qed.


(** C5. The empty text is encoded as the sentinel. *)
Theorem generate_eui_empty : generate_eui [] = Ok INVALID_EUI.
Proof. reflexivity. Qed.

(** C7. When the extracted serial number is 8 or 16 characters long and
    the extracted revision is 6 characters long, the assembled string
    ["02" + revision + serial tail] is exactly 16 characters long; the
    encoder returns its uppercase form, which is not the sentinel: the
    final length test never sends the sentinel back. *)
Theorem generate_eui_final_length (rpi_info sn rev : str) :
  get_rpi_serial_number rpi_info = Ok sn ->
  get_rpi_revision rpi_info = Ok rev ->
  length sn = 8 \/ length sn = 16 ->
  length rev = 6 ->
  let eui := EUI_FIRST_OCTECT_LOCAL_ADMINISTRED ++ rev ++ serial_tail sn in
  length eui = EUI_CHARS_LENGTH /\
  generate_eui rpi_info = Ok (upper eui) /\
  generate_eui rpi_info <> Ok INVALID_EUI.
Proof.
  intros Hs Hr Hsn Hrev eui.
  assert (Hgen : generate_eui rpi_info = Ok (upper eui)).
  { rewrite (generate_eui_fields rpi_info sn rev Hs Hr).
    rewrite Hrev. destruct Hsn as [-> | ->]; reflexivity. }
  split; [now apply eui_length|]. split; [exact Hgen|].
  rewrite Hgen. intros E.
  exact (upper_eui_not_invalid _ (Ok_inj _ _ _ E)).
Qed.

(** C10. Two texts with the same extracted revision and with extracted
    serial numbers of 16 characters that agree on their last 8 characters
    are encoded alike: the first 8 characters of the serial play no part. *)
Theorem generate_eui_ignores_serial_prefix (info1 info2 sn1 sn2 rev : str) :
  get_rpi_revision info1 = Ok rev ->
  get_rpi_revision info2 = Ok rev ->
  get_rpi_serial_number info1 = Ok sn1 ->
  get_rpi_serial_number info2 = Ok sn2 ->
  length sn1 = 16 -> length sn2 = 16 ->
  skipn 8 sn1 = skipn 8 sn2 ->
  generate_eui info1 = generate_eui info2.
Proof.
  intros Hr1 Hr2 Hs1 Hs2 Hl1 Hl2 Htail.
  rewrite (generate_eui_fields info1 sn1 rev Hs1 Hr1).
  rewrite (generate_eui_fields info2 sn2 rev Hs2 Hr2).
  unfold serial_tail. rewrite Hl1, Hl2. cbn [Nat.eqb negb andb orb].
  now rewrite Htail.
Qed.

(** C2, as the code has it.  A value other than the sentinel is the
    uppercase form of the 16-character string ["02" + revision + serial
    tail].  It is 16 characters long when the two fields are ASCII, and it
    is made of uppercase hexadecimal digits when the revision and the
    serial tail are hexadecimal digits of either case.  The encoder does
    not look at the characters of the fields. *)
Theorem generate_eui_value (rpi_info v : str) :
  generate_eui rpi_info = Ok v -> v <> INVALID_EUI ->
  exists sn rev,
    get_rpi_serial_number rpi_info = Ok sn /\
    get_rpi_revision rpi_info = Ok rev /\
    let eui := EUI_FIRST_OCTECT_LOCAL_ADMINISTRED ++ rev ++ serial_tail sn in
    length eui = 16 /\ v = upper eui /\
    (forallb is_ascii (rev ++ serial_tail sn) = true -> length v = 16) /\
    (forallb is_hex_digit (rev ++ serial_tail sn) = true ->
     length v = 16 /\ forallb is_upper_hex_digit v = true).
Proof.
  intros Hgen Hv.
  destruct (generate_eui_Ok_inv rpi_info v Hgen) as (sn & rev & Hs & Hr).
  exists sn, rev. split; [exact Hs|]. split; [exact Hr|]. intros eui.
  rewrite (generate_eui_fields rpi_info sn rev Hs Hr) in Hgen.
  destruct (negb (length sn =? 16) && negb (length sn =? 8)) eqn:E1;
    [cbn [orb] in Hgen; congruence|].
  destruct (negb (length rev =? 6)) eqn:E2; [cbn [orb] in Hgen; congruence|].
  cbn [orb] in Hgen. apply Ok_inj in Hgen. fold eui in Hgen.
  assert (Hlen : length eui = 16).
  { apply eui_length.
    - apply andb_false_iff in E1 as [E1|E1]; apply negb_false_iff in E1;
        apply Nat.eqb_eq in E1; auto.
    - apply negb_false_iff in E2. now apply Nat.eqb_eq. }
  assert (Hascii : forallb is_ascii (rev ++ serial_tail sn) = true ->
                   length v = 16).
  { intros Ha. rewrite <- Hgen, upper_ascii_length; [exact Hlen|].
    unfold eui. now rewrite forallb_app, Ha. }
  split; [exact Hlen|]. split; [now symmetry|]. split; [exact Hascii|].
  intros Hhex. split; [now apply Hascii, forallb_hex_ascii|].
  rewrite <- Hgen. apply upper_hex. unfold eui. now rewrite forallb_app, Hhex.
Qed.

End Encoder.

(* ================================================================== *)
(** ** The encoder on the sample inputs *)

(** Goes through the lines of a sample text: a line with one of the two
    labels is one of the two expected lines. *)
Ltac only_lines Hin Hocc :=
  vm_compute in Hin;
  repeat (destruct Hin as [<- | Hin];
          [first [left; reflexivity | right; reflexivity
                 | destruct Hocc as [Hocc | Hocc]; no_label Hocc]|]);
  destruct Hin.

Lemma generate_eui_serial16_witness :
  @generate_eui sharp_s_only cpuinfo_serial16 = Ok (py "02A0314090ABCDEF").
Proof.
  apply (@generate_eui_serial16 sharp_s_only cpuinfo_serial16).
  - vm_compute. auto.
  - vm_compute. auto.
  - intros l Hin Hocc. only_lines Hin Hocc.
Defined.

Lemma generate_eui_serial8_lowercase_witness :
  @generate_eui sharp_s_only cpuinfo_serial8 = Ok (py "02A0314090ABCDEF").
Proof.
  apply (@generate_eui_serial8_lowercase sharp_s_only cpuinfo_serial8).
  - vm_compute. auto.
  - vm_compute. auto.
  - intros l Hin Hocc. only_lines Hin Hocc.
Defined.



Lemma generate_eui_final_length_witness :
  length (py "02A0314090ABCDEF") = EUI_CHARS_LENGTH /\
  @generate_eui sharp_s_only cpuinfo_serial16 = Ok (py "02A0314090ABCDEF") /\
  @generate_eui sharp_s_only cpuinfo_serial16 <> Ok INVALID_EUI.
Proof.
  apply (@generate_eui_final_length sharp_s_only cpuinfo_serial16
           (py "1234567890ABCDEF") (py "A03140")).
  - reflexivity.
  - reflexivity.
  - right. reflexivity.
  - reflexivity.
Defined.

Lemma generate_eui_ignores_serial_prefix_witness :
  @generate_eui sharp_s_only cpuinfo_serial16 =
  @generate_eui sharp_s_only cpuinfo_other_prefix.
Proof.
  apply (@generate_eui_ignores_serial_prefix sharp_s_only
           cpuinfo_serial16 cpuinfo_other_prefix
           (py "1234567890ABCDEF") (py "0000000090ABCDEF") (py "A03140"));
    reflexivity.
Defined.

Lemma generate_eui_value_witness :
  exists sn rev,
    get_rpi_serial_number cpuinfo_serial16 = Ok sn /\
    get_rpi_revision cpuinfo_serial16 = Ok rev /\
    let eui := EUI_FIRST_OCTECT_LOCAL_ADMINISTRED ++ rev ++ serial_tail sn in
    length eui = 16 /\ py "02A0314090ABCDEF" = @upper sharp_s_only eui /\
    (forallb is_ascii (rev ++ serial_tail sn) = true ->
     length (py "02A0314090ABCDEF") = 16) /\
    (forallb is_hex_digit (rev ++ serial_tail sn) = true ->
     length (py "02A0314090ABCDEF") = 16 /\
     forallb is_upper_hex_digit (py "02A0314090ABCDEF") = true).
Proof.
  apply (@generate_eui_value sharp_s_only cpuinfo_serial16 (py "02A0314090ABCDEF")).
  - reflexivity.
  - discriminate.
Defined.

(** The claim C2 fails on a text whose fields have the accepted lengths and
    are not hexadecimal: the value returned is not the sentinel, is 16
    characters long, and has characters outside [0-9A-F]. *)
Lemma generate_eui_not_hex :
  (forall U : UnicodeData,
     @generate_eui U cpuinfo_not_hex = Ok (py "02GGGGGGZZZZZZZZ")) /\
  py "02GGGGGGZZZZZZZZ" <> INVALID_EUI /\
  length (py "02GGGGGGZZZZZZZZ") = 16 /\
  forallb is_upper_hex_digit (py "02GGGGGGZZZZZZZZ") = false.
Proof.
  split; [intros U; reflexivity|]. split; [discriminate|]. split; reflexivity.
Qed.

(** Outside ASCII the length is not kept either: with the sharp s, which
    uppercases to two letters, a 6-character revision gives 22 characters. *)
Remark generate_eui_sharp_s (U : UnicodeData) :
  to_upper_full 223%N = [83%N; 83%N] ->
  generate_eui cpuinfo_sharp_s = Ok (py "02SSSSSSSSSSSS90ABCDEF").
Proof.
  intros H.
  rewrite (generate_eui_fields cpuinfo_sharp_s (py "90ABCDEF")
             [223%N; 223%N; 223%N; 223%N; 223%N; 223%N]) by reflexivity.
  cbn [length Nat.eqb negb andb orb]. rewrite !upper_app.
  change (upper [223%N; 223%N; 223%N; 223%N; 223%N; 223%N])
    with (to_upper_full 223%N ++ to_upper_full 223%N ++ to_upper_full 223%N ++
          to_upper_full 223%N ++ to_upper_full 223%N ++ to_upper_full 223%N ++ []).
  rewrite H. reflexivity.
Qed.

(* ================================================================== *)
(** ** More on field extraction *)

Section ExtractionFacts.

Variable pattern : str.

(** A fault of the loop is an [IndexError] and comes from a line with the
    label and without the separator. *)
Lemma for_line_in_Raise_inv (lines : list str) (value : str) (e : exception) :
  for_line_in pattern lines value = Raise e ->
  e = IndexError /\
  exists l, In l lines /\ occurs_in pattern l /\ ~ occurs_in FIELD_SEPARATOR l.
Proof.
  revert value. induction lines as [|line rest IH]; intros value;
    cbn [for_line_in]; [discriminate|].
  destruct (contains pattern line) eqn:Hc.
  - destruct (find_first FIELD_SEPARATOR line) as [[b a]|] eqn:Hf.
    + rewrite (split_getitem_Some _ _ _ _ Hf). cbn [bind]. intros H.
      destruct (IH _ H) as (He & l & Hl & Hp & Hs).
      split; [exact He|]. exists l. split; [now right | now split].
    + rewrite (split_getitem_None _ _ Hf). cbn [bind]. intros [= <-].
      split; [reflexivity|]. exists line. split; [now left|].
      split; [now apply contains_spec|].
      now apply contains_false, find_first_None.
  - intros H. destruct (IH _ H) as (He & l & Hl & Hp & Hs).
    split; [exact He|]. exists l. split; [now right | now split].
Qed.

(** A value returned by the loop is the one it started with, or what follows
    the first separator of one of the lines. *)
Lemma for_line_in_Ok_inv (lines : list str) (value v : str) :
  for_line_in pattern lines value = Ok v ->
  v = value \/
  exists l b, In l lines /\ find_first FIELD_SEPARATOR l = Some (b, v).
Proof.
  revert value. induction lines as [|line rest IH]; intros value;
    cbn [for_line_in].
  - intros [= <-]. now left.
  - assert (Hrest : forall value', for_line_in pattern rest value' = Ok v ->
              v = value' \/
              exists l b, In l (line :: rest) /\
                          find_first FIELD_SEPARATOR l = Some (b, v)).
    { intros value' H. destruct (IH _ H) as [-> | (l & b & Hl & Hf)];
        [now left | right; exists l, b; split; [now right | exact Hf]]. }
    destruct (contains pattern line); [|apply Hrest].
    destruct (find_first FIELD_SEPARATOR line) as [[b a]|] eqn:Hf.
    + rewrite (split_getitem_Some _ _ _ _ Hf). cbn [bind]. intros H.
      destruct (Hrest _ H) as [-> | Hex]; [|now right].
      right. exists line, b. split; [now left | exact Hf].
    + rewrite (split_getitem_None _ _ Hf). discriminate.
Qed.

End ExtractionFacts.

Lemma no_linebreak_rev (cur : str) :
  no_linebreak cur = true -> no_linebreak (rev cur) = true.
Proof.
  unfold no_linebreak. rewrite !forallb_forall.
  intros H c Hc. apply H. now apply in_rev.
Qed.

(** The lines of [splitlines] hold no line boundary. *)
Lemma splitlines_from_no_linebreak (n : nat) :
  forall s cur, length s <= n -> no_linebreak cur = true ->
  forall l, In l (splitlines_from cur s) -> no_linebreak l = true.
Proof.
  induction n as [|n IH]; intros [|c rest] cur Hn Hcur l; cbn [splitlines_from];
    try (simpl in Hn; lia).
  - destruct cur; [intros [] | intros [<- | []]; now apply no_linebreak_rev].
  - destruct cur; [intros [] | intros [<- | []]; now apply no_linebreak_rev].
  - simpl in Hn. destruct (is_linebreak c) eqn:Hc.
    + intros [<- | Hl]; [now apply no_linebreak_rev|].
      destruct rest as [|d rest'].
      * destruct Hl.
      * destruct (N.eqb c 13 && N.eqb d 10).
        -- apply (IH rest' []); [simpl in Hn; lia | reflexivity | exact Hl].
        -- apply (IH (d :: rest') []); [lia | reflexivity | exact Hl].
    + apply (IH rest (c :: cur)); [lia|].
      unfold no_linebreak. cbn [forallb]. now rewrite Hc.
Qed.

Lemma splitlines_no_linebreak (s l : str) :
  In l (splitlines s) -> no_linebreak l = true.
Proof.
  now apply (splitlines_from_no_linebreak (length s) s []).
Qed.

(** X2. An extractor raises nothing but [IndexError], and only on a text
    with a line that has its label and lacks the separator. *)
Theorem extract_raises_only (f : field) (rpi_info : str) (e : exception) :
  extract f rpi_info = Raise e ->
  e = IndexError /\
  exists l, In l (splitlines rpi_info) /\ occurs_in (label f) l /\
            ~ occurs_in FIELD_SEPARATOR l.
Proof.
  destruct f; apply for_line_in_Raise_inv.
Qed.

Lemma extract_faults_witness :
  extract Revision cpuinfo_both_labels_no_separator = Raise IndexError.
Proof.
  apply (extract_faults Revision cpuinfo_both_labels_no_separator (py "Revision")).
  - vm_compute. auto.
  - apply contains_spec. reflexivity.
  - apply contains_false. reflexivity.
Defined.

Lemma extract_raises_only_witness :
  IndexError = IndexError /\
  exists l, In l (splitlines cpuinfo_serial_no_separator) /\
            occurs_in RPI_SERIAL_PATTERN l /\ ~ occurs_in FIELD_SEPARATOR l.
Proof.
  apply (extract_raises_only Serial cpuinfo_serial_no_separator IndexError).
  reflexivity.
Defined.

Lemma extracted_no_linebreak (f : field) (rpi_info v : str) :
  extract f rpi_info = Ok v -> no_linebreak v = true.
Proof.
  intros H.
  assert (Hv : v = [] \/
               exists l b, In l (splitlines rpi_info) /\
                           find_first FIELD_SEPARATOR l = Some (b, v)).
  { destruct f; exact (for_line_in_Ok_inv _ _ _ _ H). }
  destruct Hv as [-> | (l & b & Hl & Hf)]; [reflexivity|].
  apply splitlines_no_linebreak in Hl. apply find_first_Some in Hf.
  unfold no_linebreak in *. rewrite Hf, !forallb_app in Hl.
  apply andb_true_iff in Hl as [_ Hl]. now apply andb_true_iff in Hl as [_ Hl].
Qed.

(** X3. A value returned by an extractor holds no line boundary (line feed,
    carriage return or any other character at which [splitlines] cuts). *)
Theorem extract_no_linebreak (f : field) (rpi_info v : str) :
  extract f rpi_info = Ok v -> no_linebreak v = true.
Proof. apply extracted_no_linebreak. Qed.

Lemma extract_no_linebreak_witness :
  no_linebreak (py "1234567890ABCDEF") = true.
Proof.
  apply (extract_no_linebreak Serial cpuinfo_two_serials (py "1234567890ABCDEF")).
  reflexivity.
Defined.

(* ================================================================== *)
(** ** More on the encoder *)

Section EncoderMore.

Context {U : UnicodeData}.

Lemma upper_skipn_ascii (n : nat) (s : str) :
  forallb is_ascii s = true -> upper (skipn n s) = skipn n (upper s).
Proof.
  revert n. induction s as [|c s IH]; intros [|n] H; try reflexivity.
  cbn [forallb] in H. apply andb_true_iff in H as [Hc Hs].
  change (upper (c :: s)) with (upper_char c ++ upper s).
  destruct (upper_char_ascii c Hc) as [c' ->]. cbn [skipn app]. now apply IH.
Qed.

Lemma forallb_skipn (f : char -> bool) (n : nat) (s : str) :
  forallb f s = true -> forallb f (skipn n s) = true.
Proof.
  rewrite !forallb_forall. intros H c Hc. apply H.
  rewrite <- (firstn_skipn n s). apply in_or_app. now right.
Qed.

Lemma skipn_prefix (p s : str) (n : nat) : length p = n -> skipn n (p ++ s) = s.
Proof.
  intros <-. induction p as [|c p IH]; [reflexivity | exact IH].
Qed.

(** With accepted lengths the value is ["02"], the uppercase revision and
    the uppercase serial tail, in this order. *)
Lemma generate_eui_accepted (rpi_info sn rev : str) :
  get_rpi_serial_number rpi_info = Ok sn ->
  get_rpi_revision rpi_info = Ok rev ->
  length sn = 8 \/ length sn = 16 -> length rev = 6 ->
  generate_eui rpi_info =
  Ok (EUI_FIRST_OCTECT_LOCAL_ADMINISTRED ++ upper rev ++ upper (serial_tail sn)).
Proof.
  intros Hs Hr Hsn Hrev. rewrite (generate_eui_fields rpi_info sn rev Hs Hr).
  rewrite Hrev. rewrite !upper_app.
  destruct Hsn as [H | H]; rewrite H; reflexivity.
Qed.

(** A fault of the encoder is a fault of one of the extractors. *)
Lemma generate_eui_Raise_inv (rpi_info : str) (e : exception) :
  generate_eui rpi_info = Raise e ->
  e = IndexError /\
  exists f l, In l (splitlines rpi_info) /\ occurs_in (label f) l /\
              ~ occurs_in FIELD_SEPARATOR l.
Proof.
  destruct (get_rpi_serial_number rpi_info) as [sn|e1] eqn:Hs.
  - destruct (get_rpi_revision rpi_info) as [rev|e2] eqn:Hr.
    + rewrite (generate_eui_fields rpi_info sn rev Hs Hr).
      now destruct (_ || _).
    + unfold generate_eui. rewrite Hs, Hr. cbn [bind]. intros [= <-].
      destruct (for_line_in_Raise_inv _ _ _ _ Hr) as (He & l & Hl).
      split; [exact He|]. now exists Revision, l.
  - unfold generate_eui. rewrite Hs. cbn [bind]. intros [= <-].
    destruct (for_line_in_Raise_inv _ _ _ _ Hs) as (He & l & Hl).
    split; [exact He|]. now exists Serial, l.
Qed.

(** A line with a label and without the separator makes the encoder fault. *)
Lemma generate_eui_faults (rpi_info l : str) (f : field) :
  In l (splitlines rpi_info) -> occurs_in (label f) l ->
  ~ occurs_in FIELD_SEPARATOR l ->
  generate_eui rpi_info = Raise IndexError.
Proof.
  intros Hin Hp Hsep. unfold generate_eui. destruct f.
  - unfold get_rpi_serial_number.
    now rewrite (for_line_in_faults RPI_SERIAL_PATTERN _ [] l Hin Hp Hsep).
  - destruct (get_rpi_serial_number rpi_info) as [sn|e1] eqn:Hs; cbn [bind].
    + unfold get_rpi_revision.
      now rewrite (for_line_in_faults RPI_REVISION_PATTERN _ [] l Hin Hp Hsep).
    + now destruct (for_line_in_Raise_inv _ _ _ _ Hs) as (-> & _).
Qed.

(** X4. The encoder raises exactly when one of the two extractors does: the
    exception is [IndexError], and some line has a label ([Serial] or
    [Revision]) without the separator.  No length or character of a field
    makes it raise. *)
Theorem generate_eui_raises_iff (rpi_info : str) (e : exception) :
  generate_eui rpi_info = Raise e <->
  e = IndexError /\
  exists f l, In l (splitlines rpi_info) /\ occurs_in (label f) l /\
              ~ occurs_in FIELD_SEPARATOR l.
Proof.
  split.
  - apply generate_eui_Raise_inv.
  - intros (-> & f & l & Hin & Hp & Hsep).
    now apply generate_eui_faults with (f := f) (l := l).
Qed.

(** X5. The sentinel comes from a wrong length only: when the encoder
    returns it, the extracted serial number is neither 8 nor 16 characters
    long or the extracted revision is not 6 characters long. *)
Theorem generate_eui_sentinel_only_bad_length (rpi_info : str) :
  generate_eui rpi_info = Ok INVALID_EUI ->
  exists sn rev,
    get_rpi_serial_number rpi_info = Ok sn /\
    get_rpi_revision rpi_info = Ok rev /\
    ((length sn <> 8 /\ length sn <> 16) \/ length rev <> 6).
Proof.
  intros H.
  destruct (generate_eui_Ok_inv rpi_info _ H) as (sn & rev & Hs & Hr).
  exists sn, rev. split; [exact Hs|]. split; [exact Hr|].
  rewrite (generate_eui_fields rpi_info sn rev Hs Hr) in H.
  destruct (negb (length sn =? 16) && negb (length sn =? 8)) eqn:E1.
  - left. apply andb_true_iff in E1 as [E16 E8].
    apply negb_true_iff in E16, E8. now apply Nat.eqb_neq in E16, E8.
  - destruct (negb (length rev =? 6)) eqn:E2.
    + right. apply negb_true_iff in E2. now apply Nat.eqb_neq.
    + cbn [orb] in H. apply Ok_inj in H.
      now apply upper_eui_not_invalid in H.
Qed.

(** X6. Reading the fields back.  With accepted lengths and an ASCII
    revision, the encoder returns a value whose characters 0-1 are ["02"],
    whose characters 2-7 are the uppercase revision and whose characters
    from 8 on are the uppercase serial tail. *)
Theorem generate_eui_decode (rpi_info sn rev : str) :
  get_rpi_serial_number rpi_info = Ok sn ->
  get_rpi_revision rpi_info = Ok rev ->
  length sn = 8 \/ length sn = 16 -> length rev = 6 ->
  forallb is_ascii rev = true ->
  exists v,
    generate_eui rpi_info = Ok v /\
    firstn 2 v = EUI_FIRST_OCTECT_LOCAL_ADMINISTRED /\
    firstn 6 (skipn 2 v) = upper rev /\
    skipn 8 v = upper (serial_tail sn).
Proof.
  intros Hs Hr Hsn Hrev Hascii.
  rewrite (generate_eui_accepted rpi_info sn rev Hs Hr Hsn Hrev).
  eexists. split; [reflexivity|].
  assert (Hlen : length (upper rev) = 6) by now rewrite upper_ascii_length.
  split; [reflexivity|].
  set (tail := upper (serial_tail sn)).
  change (skipn 2 (EUI_FIRST_OCTECT_LOCAL_ADMINISTRED ++ upper rev ++ tail))
    with (upper rev ++ tail).
  change (skipn 8 (EUI_FIRST_OCTECT_LOCAL_ADMINISTRED ++ upper rev ++ tail))
    with (skipn 6 (upper rev ++ tail)).
  split.
  - rewrite <- Hlen at 1. rewrite firstn_app, Nat.sub_diag, firstn_all.
    cbn [firstn]. apply app_nil_r.
  - now apply skipn_prefix.
Qed.

(** X7. Different boards get different values.  For two texts with accepted
    lengths and ASCII revisions, equal encoder results mean equal uppercase
    revisions and equal uppercase serial tails. *)
Theorem generate_eui_injective (info1 info2 sn1 sn2 rev1 rev2 : str) :
  get_rpi_serial_number info1 = Ok sn1 -> get_rpi_revision info1 = Ok rev1 ->
  get_rpi_serial_number info2 = Ok sn2 -> get_rpi_revision info2 = Ok rev2 ->
  length sn1 = 8 \/ length sn1 = 16 -> length rev1 = 6 ->
  length sn2 = 8 \/ length sn2 = 16 -> length rev2 = 6 ->
  forallb is_ascii rev1 = true -> forallb is_ascii rev2 = true ->
  generate_eui info1 = generate_eui info2 ->
  upper rev1 = upper rev2 /\
  upper (serial_tail sn1) = upper (serial_tail sn2).
Proof.
  intros Hs1 Hr1 Hs2 Hr2 Hl1 Hv1 Hl2 Hv2 Ha1 Ha2.
  rewrite (generate_eui_accepted info1 sn1 rev1 Hs1 Hr1 Hl1 Hv1).
  rewrite (generate_eui_accepted info2 sn2 rev2 Hs2 Hr2 Hl2 Hv2).
  intros E. apply Ok_inj, app_inv_head in E.
  apply app_inj_length in E; [exact E|].
  now rewrite !upper_ascii_length, Hv1, Hv2.
Qed.

(** X8. Letter case plays no part.  Two texts whose extracted fields are
    ASCII and equal up to case (equal once uppercased) are encoded alike. *)
Theorem generate_eui_case_insensitive (info1 info2 sn1 sn2 rev1 rev2 : str) :
  get_rpi_serial_number info1 = Ok sn1 -> get_rpi_revision info1 = Ok rev1 ->
  get_rpi_serial_number info2 = Ok sn2 -> get_rpi_revision info2 = Ok rev2 ->
  forallb is_ascii sn1 = true -> forallb is_ascii rev1 = true ->
  forallb is_ascii sn2 = true -> forallb is_ascii rev2 = true ->
  upper sn1 = upper sn2 -> upper rev1 = upper rev2 ->
  generate_eui info1 = generate_eui info2.
Proof.
  intros Hs1 Hr1 Hs2 Hr2 As1 Ar1 As2 Ar2 Es Er.
  assert (Ls : length sn1 = length sn2).
  { now rewrite <- (upper_ascii_length sn1), <- (upper_ascii_length sn2), Es. }
  assert (Lr : length rev1 = length rev2).
  { now rewrite <- (upper_ascii_length rev1), <- (upper_ascii_length rev2), Er. }
  rewrite (generate_eui_fields info1 sn1 rev1 Hs1 Hr1).
  rewrite (generate_eui_fields info2 sn2 rev2 Hs2 Hr2).
  rewrite Ls, Lr. destruct (_ || _); [reflexivity|].
  f_equal. rewrite !upper_app, Er. do 2 f_equal.
  unfold serial_tail. rewrite Ls. destruct (length sn2 =? 16); [|exact Es].
  now rewrite !upper_skipn_ascii, Es.
Qed.

(** X9. An 8-character serial number and a 16-character one that ends
    with it are encoded alike, the revision being the same: whatever stands
    in front of the last 8 characters is dropped. *)
Theorem generate_eui_serial8_serial16 (info1 info2 sn prefix rev : str) :
  get_rpi_revision info1 = Ok rev ->
  get_rpi_revision info2 = Ok rev ->
  get_rpi_serial_number info1 = Ok sn ->
  get_rpi_serial_number info2 = Ok (prefix ++ sn) ->
  length sn = 8 -> length prefix = 8 ->
  generate_eui info1 = generate_eui info2.
Proof.
  intros Hr1 Hr2 Hs1 Hs2 Hsn Hp.
  rewrite (generate_eui_fields info1 sn rev Hs1 Hr1).
  rewrite (generate_eui_fields info2 (prefix ++ sn) rev Hs2 Hr2).
  unfold serial_tail. rewrite length_app, Hsn, Hp. cbn [Nat.add Nat.eqb negb andb].
  now rewrite (skipn_prefix prefix sn 8 Hp).
Qed.

End EncoderMore.

Lemma generate_eui_sentinel_only_bad_length_witness :
  exists sn rev,
    get_rpi_serial_number cpuinfo_short_revision = Ok sn /\
    get_rpi_revision cpuinfo_short_revision = Ok rev /\
    ((length sn <> 8 /\ length sn <> 16) \/ length rev <> 6).
Proof.
  apply (@generate_eui_sentinel_only_bad_length sharp_s_only cpuinfo_short_revision).
  reflexivity.
Defined.

Lemma generate_eui_decode_witness :
  exists v,
    @generate_eui sharp_s_only cpuinfo_lowercase = Ok v /\
    firstn 2 v = EUI_FIRST_OCTECT_LOCAL_ADMINISTRED /\
    firstn 6 (skipn 2 v) = @upper sharp_s_only (py "a03140") /\
    skipn 8 v = @upper sharp_s_only (serial_tail (py "1234567890abcdef")).
Proof.
  apply (@generate_eui_decode sharp_s_only cpuinfo_lowercase
           (py "1234567890abcdef") (py "a03140")); try reflexivity.
  right. reflexivity.
Defined.

Lemma generate_eui_injective_witness :
  @upper sharp_s_only (py "A03140") = @upper sharp_s_only (py "a03140") /\
  @upper sharp_s_only (serial_tail (py "1234567890ABCDEF")) =
  @upper sharp_s_only (serial_tail (py "1234567890abcdef")).
Proof.
  apply (@generate_eui_injective sharp_s_only cpuinfo_serial16 cpuinfo_lowercase
           (py "1234567890ABCDEF") (py "1234567890abcdef")
           (py "A03140") (py "a03140")); try reflexivity;
    right; reflexivity.
Defined.

Lemma generate_eui_case_insensitive_witness :
  @generate_eui sharp_s_only cpuinfo_serial16 =
  @generate_eui sharp_s_only cpuinfo_lowercase.
Proof.
  apply (@generate_eui_case_insensitive sharp_s_only
           cpuinfo_serial16 cpuinfo_lowercase
           (py "1234567890ABCDEF") (py "1234567890abcdef")
           (py "A03140") (py "a03140")); reflexivity.
Defined.

Lemma generate_eui_serial8_serial16_witness :
  @generate_eui sharp_s_only cpuinfo_serial8_uppercase =
  @generate_eui sharp_s_only cpuinfo_other_prefix.
Proof.
  apply (@generate_eui_serial8_serial16 sharp_s_only
           cpuinfo_serial8_uppercase cpuinfo_other_prefix
           (py "90ABCDEF") (py "00000000") (py "A03140")); reflexivity.
Defined.

(* ================================================================== *)
(** ** More on reading the information file *)

Lemma file_read_text_Raise_inv (io : file_io) (file_path : str) (e : exception) :
  file_read_text io file_path = Raise e ->
  with_open_read io file_path = Raise e /\ is_Exception e = false.
Proof.
  unfold file_read_text, try_except_Exception.
  destruct (with_open_read io file_path) as [text|e']; [discriminate|].
  destruct (is_Exception e') eqn:He; [discriminate|].
  intros [= ->]. now split.
Qed.

(** X10. [file_read_text] raises only what is not of class [Exception]
    ([KeyboardInterrupt], [SystemExit]), and raises it exactly when [open]
    or [read] raised it: no error of class [Exception] ever leaves it. *)
Theorem file_read_text_raises_iff (io : file_io) (file_path : str) (e : exception) :
  file_read_text io file_path = Raise e <->
  with_open_read io file_path = Raise e /\ is_Exception e = false.
Proof.
  split; [apply file_read_text_Raise_inv|].
  intros [H He]. unfold file_read_text. rewrite H.
  cbn [try_except_Exception]. now rewrite He.
Qed.

(* ================================================================== *)
(** ** The entry point *)

Lemma str_eqb_eq (a b : str) : str_eqb a b = true <-> a = b.
Proof.
  revert b. induction a as [|x a IH]; intros [|y b]; simpl; try easy.
  rewrite andb_true_iff, N.eqb_eq, IH. split.
  - now intros [-> ->].
  - now intros [= -> ->].
Qed.

Lemma str_eqb_neq (a b : str) : str_eqb a b = false <-> a <> b.
Proof.
  rewrite <- str_eqb_eq. now destruct (str_eqb a b).
Qed.

Section EntryPoint.

Context {U : UnicodeData}.
Variable io : file_io.

(** [main] from an empty standard output, by the result of the two calls. *)
Lemma main_eq (argc : nat) (argv : list str) :
  main io argc argv [] =
  match file_read_text io F_RPI_INFO with
  | Raise e => ([], Raised (Exc e))
  | Ok rpi_info =>
      if str_eqb rpi_info [] then (INVALID_EUI ++ [10%N], Raised (Exit RC.FAIL))
      else
        match generate_eui rpi_info with
        | Raise e => ([], Raised (Exc e))
        | Ok eui =>
            if str_eqb eui INVALID_EUI
            then (INVALID_EUI ++ [10%N], Raised (Exit RC.FAIL))
            else (eui ++ [10%N], Raised (Exit RC.OK))
        end
  end.
Proof.
  unfold main, and_then, call.
  destruct (file_read_text io F_RPI_INFO) as [rpi_info|e]; [|reflexivity].
  destruct (str_eqb rpi_info []); [reflexivity|]. cbn [ret].
  destruct (generate_eui rpi_info) as [eui|e]; [|reflexivity].
  destruct (str_eqb eui INVALID_EUI); reflexivity.
Qed.

Lemma file_read_text_of_read (text : str) :
  with_open_read io F_RPI_INFO = Ok text ->
  file_read_text io F_RPI_INFO = Ok text.
Proof. unfold file_read_text. now intros ->. Qed.

(** X12. When the information file cannot be opened or read (any error of
    class [Exception]), or is empty, the run prints the sentinel and exits
    with [RC.FAIL]. *)
Theorem run_unreadable_or_empty (sys_argv : list str) :
  with_open_read io F_RPI_INFO = Ok [] \/
  (exists e, with_open_read io F_RPI_INFO = Raise e /\ is_Exception e = true) ->
  run io sys_argv = (INVALID_EUI ++ [10%N], Raised (Exit RC.FAIL)).
Proof.
  intros H. unfold run, script, try_except_KeyboardInterrupt. rewrite main_eq.
  assert (Hread : file_read_text io F_RPI_INFO = Ok []).
  { unfold file_read_text. destruct H as [-> | (e & -> & He)]; [reflexivity|].
    cbn [try_except_Exception]. now rewrite He. }
  now rewrite Hread.
Qed.

(** X13. When the information file is read and is not empty, and the
    encoder returns, the run prints the encoder's value on one line; it
    exits with [RC.FAIL] when that value is the sentinel and with [RC.OK]
    otherwise. *)
Theorem run_prints_eui (sys_argv : list str) (rpi_info eui : str) :
  with_open_read io F_RPI_INFO = Ok rpi_info -> rpi_info <> [] ->
  generate_eui rpi_info = Ok eui ->
  run io sys_argv =
  (eui ++ [10%N],
   Raised (Exit (if str_eqb eui INVALID_EUI then RC.FAIL else RC.OK))).
Proof.
  intros Hread Hne Hgen. unfold run, script, try_except_KeyboardInterrupt.
  rewrite main_eq, (file_read_text_of_read _ Hread), Hgen.
  apply str_eqb_neq in Hne. rewrite Hne.
  destruct (str_eqb eui INVALID_EUI) eqn:E; [|reflexivity].
  apply str_eqb_eq in E. now subst eui.
Qed.

(** X14. A [KeyboardInterrupt] raised while the information file is opened
    or read is not an error for the script: [main] lets it through, the
    entry point catches it, nothing is printed and the exit code is
    [RC.OK]. *)
Theorem run_interrupted (sys_argv : list str) :
  with_open_read io F_RPI_INFO = Raise KeyboardInterrupt ->
  main io (length (skipn 1 sys_argv)) (skipn 1 sys_argv) []
    = ([], Raised (Exc KeyboardInterrupt)) /\
  run io sys_argv = ([], Raised (Exit RC.OK)).
Proof.
  intros H. unfold run, script, try_except_KeyboardInterrupt. rewrite main_eq.
  unfold file_read_text. rewrite H. now split.
Qed.

(** X15. A line with a label and without the separator is not turned into
    the sentinel: the [IndexError] of the extractor leaves the script
    uncaught, and nothing is printed. *)
Theorem run_malformed_line (sys_argv : list str) (rpi_info l : str) (f : field) :
  with_open_read io F_RPI_INFO = Ok rpi_info ->
  In l (splitlines rpi_info) -> occurs_in (label f) l ->
  ~ occurs_in FIELD_SEPARATOR l ->
  run io sys_argv = ([], Raised (Exc IndexError)).
Proof.
  intros Hread Hin Hp Hsep. unfold run, script, try_except_KeyboardInterrupt.
  rewrite main_eq, (file_read_text_of_read _ Hread).
  assert (Hne : str_eqb rpi_info [] = false).
  { apply str_eqb_neq. intros ->. destruct Hin. }
  rewrite Hne.
  assert (Hgen : generate_eui rpi_info = Raise IndexError).
  { apply generate_eui_faults with (f := f) (l := l); assumption. }
  now rewrite Hgen.
Qed.

End EntryPoint.

(* ================================================================== *)
(** ** The entry point, by the fields of the information file *)

Section EntryPointFields.

Context {U : UnicodeData}.
Variable io : file_io.

Lemma upper_char_no_linebreak (c : char) :
  is_ascii c = true -> is_linebreak c = false ->
  exists c', upper_char c = [c'] /\ is_linebreak c' = false.
Proof.
  intros Ha Hc. unfold upper_char. rewrite Ha. eexists. split; [reflexivity|].
  destruct (N.leb 97 c && N.leb c 122) eqn:E; [|exact Hc].
  apply between_iff in E. unfold is_linebreak.
  repeat (apply orb_false_intro); apply N.eqb_neq; lia.
Qed.

Lemma upper_no_linebreak (s : str) :
  forallb is_ascii s = true -> no_linebreak s = true ->
  no_linebreak (upper s) = true.
Proof.
  unfold no_linebreak. induction s as [|c s IH]; [reflexivity|].
  cbn [forallb]. intros Ha Hn.
  apply andb_true_iff in Ha as [Hac Has]. apply andb_true_iff in Hn as [Hnc Hns].
  apply negb_true_iff in Hnc.
  change (upper (c :: s)) with (upper_char c ++ upper s).
  destruct (upper_char_no_linebreak c Hac Hnc) as (c' & -> & Hc').
  cbn [app forallb]. rewrite Hc'. now apply IH.
Qed.

Lemma no_linebreak_skipn (n : nat) (s : str) :
  no_linebreak s = true -> no_linebreak (skipn n s) = true.
Proof. apply forallb_skipn. Qed.

Lemma serial_tail_forallb (f : char -> bool) (sn : str) :
  forallb f sn = true -> forallb f (serial_tail sn) = true.
Proof.
  unfold serial_tail. destruct (length sn =? 16); [apply forallb_skipn | auto].
Qed.

(** X16. From the fields to the exit code.  When the information file is
    read and both extractors return: with a serial number of 8 or 16
    characters and a revision of 6, the run prints ["02"], the uppercase
    revision and the uppercase serial tail on one line and exits with
    [RC.OK]; with any other length it prints the sentinel and exits with
    [RC.FAIL]. *)
Theorem run_by_fields (sys_argv : list str) (rpi_info sn rev : str) :
  with_open_read io F_RPI_INFO = Ok rpi_info ->
  get_rpi_serial_number rpi_info = Ok sn ->
  get_rpi_revision rpi_info = Ok rev ->
  ((length sn = 8 \/ length sn = 16) /\ length rev = 6 ->
   run io sys_argv =
   ((EUI_FIRST_OCTECT_LOCAL_ADMINISTRED ++ upper rev ++ upper (serial_tail sn))
      ++ [10%N],
    Raised (Exit RC.OK))) /\
  ((length sn <> 8 /\ length sn <> 16) \/ length rev <> 6 ->
   run io sys_argv = (INVALID_EUI ++ [10%N], Raised (Exit RC.FAIL))).
Proof.
  intros Hread Hs Hr. unfold run, script, try_except_KeyboardInterrupt.
  rewrite main_eq, (file_read_text_of_read io _ Hread). split.
  - intros [Hsn Hrev].
    assert (Hne : str_eqb rpi_info [] = false).
    { apply str_eqb_neq. intros ->. vm_compute in Hs. apply Ok_inj in Hs.
      subst sn. destruct Hsn; discriminate. }
    rewrite Hne, (generate_eui_accepted rpi_info sn rev Hs Hr Hsn Hrev).
    reflexivity.
  - intros Hbad. destruct (str_eqb rpi_info []); [reflexivity|].
    rewrite (generate_eui_fields rpi_info sn rev Hs Hr).
    assert (Hcond : (negb (length sn =? 16) && negb (length sn =? 8))
                    || negb (length rev =? 6) = true).
    { destruct Hbad as [[H8 H16] | H6].
      - apply Nat.eqb_neq in H8, H16. now rewrite H8, H16.
      - apply Nat.eqb_neq in H6. rewrite H6. apply orb_true_r. }
    now rewrite Hcond.
Qed.

(** X17. One well-formed line.  With ASCII fields of accepted lengths the
    standard output of the run is 16 characters, none of them a line
    boundary, followed by one line feed, and the exit code is [RC.OK]. *)
Theorem run_one_line (sys_argv : list str) (rpi_info sn rev : str) :
  with_open_read io F_RPI_INFO = Ok rpi_info ->
  get_rpi_serial_number rpi_info = Ok sn ->
  get_rpi_revision rpi_info = Ok rev ->
  length sn = 8 \/ length sn = 16 -> length rev = 6 ->
  forallb is_ascii sn = true -> forallb is_ascii rev = true ->
  exists line,
    run io sys_argv = (line ++ [10%N], Raised (Exit RC.OK)) /\
    length line = 16 /\ no_linebreak line = true.
Proof.
  intros Hread Hs Hr Hsn Hrev Has Har.
  exists (upper (EUI_FIRST_OCTECT_LOCAL_ADMINISTRED ++ rev ++ serial_tail sn)).
  assert (Hascii : forallb is_ascii
            (EUI_FIRST_OCTECT_LOCAL_ADMINISTRED ++ rev ++ serial_tail sn) = true).
  { rewrite !forallb_app, Har, (serial_tail_forallb _ sn Has). reflexivity. }
  split; [|split].
  - unfold run, script, try_except_KeyboardInterrupt.
    rewrite main_eq, (file_read_text_of_read io _ Hread).
    assert (Hne : str_eqb rpi_info [] = false).
    { apply str_eqb_neq. intros ->. vm_compute in Hs. apply Ok_inj in Hs.
      subst sn. destruct Hsn; discriminate. }
    rewrite Hne, (generate_eui_accepted rpi_info sn rev Hs Hr Hsn Hrev).
    rewrite !upper_app. reflexivity.
  - rewrite (upper_ascii_length _ Hascii). now apply eui_length.
  - apply upper_no_linebreak; [exact Hascii|].
    unfold no_linebreak. rewrite !forallb_app.
    fold (no_linebreak rev). fold (no_linebreak (serial_tail sn)).
    rewrite (extracted_no_linebreak Revision rpi_info rev Hr).
    unfold no_linebreak.
    rewrite (serial_tail_forallb _ sn (extracted_no_linebreak Serial rpi_info sn Hs)).
    reflexivity.
Qed.

End EntryPointFields.

(* ================================================================== *)
(** ** The entry point on the sample file systems *)

Lemma run_unreadable_or_empty_witness :
  @run sharp_s_only (io_failing FileNotFoundError) [py "rpigeneui.py"]
  = (INVALID_EUI ++ [10%N], Raised (Exit RC.FAIL)).
Proof.
  apply (@run_unreadable_or_empty sharp_s_only (io_failing FileNotFoundError)).
  right. exists FileNotFoundError. split; reflexivity.
Defined.

Lemma run_prints_eui_witness :
  @run sharp_s_only sample_io [py "rpigeneui.py"]
  = (py "02A0314090ABCDEF" ++ [10%N], Raised (Exit RC.OK)).
Proof.
  apply (@run_prints_eui sharp_s_only sample_io [py "rpigeneui.py"]
           cpuinfo_serial16 (py "02A0314090ABCDEF")).
  - reflexivity.
  - discriminate.
  - reflexivity.
Defined.

Lemma run_interrupted_witness :
  @main sharp_s_only (io_failing KeyboardInterrupt) 0 [] []
    = ([], Raised (Exc KeyboardInterrupt)) /\
  @run sharp_s_only (io_failing KeyboardInterrupt) [py "rpigeneui.py"]
    = ([], Raised (Exit RC.OK)).
Proof.
  apply (@run_interrupted sharp_s_only (io_failing KeyboardInterrupt)
           [py "rpigeneui.py"]).
  reflexivity.
Defined.

Lemma run_by_fields_witness :
  @run sharp_s_only (io_content cpuinfo_lowercase) [py "rpigeneui.py"]
  = (py "02A0314090ABCDEF" ++ [10%N], Raised (Exit RC.OK)) /\
  @run sharp_s_only (io_content cpuinfo_short_revision) [py "rpigeneui.py"]
  = (INVALID_EUI ++ [10%N], Raised (Exit RC.FAIL)).
Proof.
  split.
  - apply (proj1 (@run_by_fields sharp_s_only (io_content cpuinfo_lowercase)
                    [py "rpigeneui.py"] cpuinfo_lowercase
                    (py "1234567890abcdef") (py "a03140")
                    eq_refl eq_refl eq_refl)).
    split; [right|]; reflexivity.
  - apply (proj2 (@run_by_fields sharp_s_only (io_content cpuinfo_short_revision)
                    [py "rpigeneui.py"] cpuinfo_short_revision
                    (py "90ABCDEF") (py "A0314")
                    eq_refl eq_refl eq_refl)).
    right. discriminate.
Defined.

Lemma run_one_line_witness :
  exists line,
    @run sharp_s_only sample_io [py "rpigeneui.py"]
      = (line ++ [10%N], Raised (Exit RC.OK)) /\
    length line = 16 /\ no_linebreak line = true.
Proof.
  apply (@run_one_line sharp_s_only sample_io [py "rpigeneui.py"]
           cpuinfo_serial16 (py "1234567890ABCDEF") (py "A03140"));
    try reflexivity.
  right. reflexivity.
Defined.

Lemma run_malformed_line_witness :
  @run sharp_s_only (io_content cpuinfo_serial_no_separator) [py "rpigeneui.py"]
  = ([], Raised (Exc IndexError)).
Proof.
  apply (@run_malformed_line sharp_s_only (io_content cpuinfo_serial_no_separator)
           [py "rpigeneui.py"] cpuinfo_serial_no_separator
           (py "Serial:90ABCDEF") Serial).
  - reflexivity.
  - vm_compute. auto.
  - apply contains_spec. reflexivity.
  - apply contains_false. reflexivity.
Defined.

(* ================================================================== *)
(** ** Running the definitions *)

Example splitlines_ex :
  splitlines (py "a" ++ [13%N; 10%N] ++ py "b" ++ [10%N; 10%N] ++ py "c" ++ [13%N])
  = [py "a"; py "b"; []; py "c"].
Proof. reflexivity. Qed.

Example generate_eui_ex :
  @generate_eui sharp_s_only
    (py "Hardware : BCM2835" ++ [10%N] ++ py "Revision : a03140" ++ [10%N]
     ++ py "Serial : 1234567890abcdef" ++ [10%N])
  = Ok (py "02A0314090ABCDEF").
Proof. vm_compute. reflexivity. Qed.
